(** * Blood Bank API: registration, login and diagnostics (src/main.py)

    A shallow embedding of the four FastAPI handlers of [main.py]
    ([read_root], [test_database], [register_user], [login_user]) and the
    properties of their request/response contracts.

    Conventions of the embedding.
    - A Python [str] is a sequence of Unicode code points ([pystr]); slicing
      [s[:n]] is [take n s] and [+] is list concatenation.  Dictionary keys,
      which the handlers only compare, are Rocq strings.
    - A MongoDB document is a finite map from keys to Python values; a
      collection is the list of its documents in insertion order and
      [find_one] returns the first match.
    - A response body is a tree of dict literals (association lists in the
      order of the literal), lists and leaf values.
    - Calls into libraries that can raise are given an [outcome]; a handler
      produces a [result]: a returned body, an [HTTPException], or an
      exception that nothing caught.
    - A handler is modelled from the point where the framework calls it:
      the payload has passed validation (a malformed one is answered 422
      before the handler runs) and the lookups in the collection are taken
      to return.
    - What the handlers import but [main.py] does not define is taken as an
      interface: [str.lower] ([StrLib]), passlib's [CryptContext]
      ([CryptContext]) and the repository's [database] module
      ([DatabaseModule]). *)

From stdpp Require Import base option list strings gmap fin_maps.
From Stdlib Require Import ZArith NArith.

Local Open Scope string_scope.
Local Open Scope Z_scope.
Local Open Scope list_scope.

Set Warnings "-register-all".

(** ** Python values *)

(** A Python [str]: its code points. *)
Definition pystr := list N.

(** An ASCII literal of the source as a [pystr]. *)
Definition py (s : string) : pystr :=
  map Ascii.N_of_ascii (String.list_ascii_of_string s).
Arguments py : simpl never.

(** The emoji of the diagnostic strings (not ASCII, given by code point). *)
Definition CHECK_MARK : pystr := [9989%N].            (* U+2705 *)
Definition CROSS_MARK : pystr := [10060%N].           (* U+274C *)
Definition WARNING_SIGN : pystr := [9888%N; 65039%N]. (* U+26A0 U+FE0F *)

(** [bson.objectid.ObjectId]: a 12-byte value, held as a number. *)
Definition ObjectId := N.

Inductive value :=
| VNone
| VBool (b : bool)
| VStr (s : pystr)
| VOid (o : ObjectId).

#[global] Instance value_eq_dec : EqDecision value.
Proof. solve_decision. Defined.

#[global] Instance value_inhabited : Inhabited value := populate VNone.

(** Python truthiness ([if x:], [not x]). *)
Definition truthy (v : value) : bool :=
  match v with
  | VNone => false
  | VBool b => b
  | VStr s => negb (bool_decide (s = []))
  | VOid _ => true
  end.

(** One hexadecimal digit, lower case, as a code point. *)
Definition hex_digit (d : N) : N :=
  if (d <? 10)%N then (48 + d)%N else (87 + d)%N.

(** The [n] low hexadecimal digits of [x], most significant first. *)
Fixpoint hex_digits (n : nat) (x : N) : pystr :=
  match n with
  | O => []
  | S n' => hex_digits n' (x / 16)%N ++ [hex_digit (x mod 16)%N]
  end.

(** [str(v)] for the values above; an ObjectId prints as 24 hex digits. *)
Definition py_str (v : value) : pystr :=
  match v with
  | VNone => py "None"
  | VBool true => py "True"
  | VBool false => py "False"
  | VStr s => s
  | VOid o => hex_digits 24 o
  end.

(** Optional request fields ([Optional[str] = None]). *)
Definition opt_value (o : option pystr) : value :=
  match o with
  | None => VNone
  | Some s => VStr s
  end.

(** ** Documents and collections *)

Abbreviation document := (gmap string value).

(** [d.get(k, dflt)] *)
Definition dict_get (d : document) (k : string) (dflt : value) : value :=
  default dflt (d !! k).

(** Truthiness of the result of [find_one]: [None] and the empty dict are
    falsy. *)
Definition truthy_doc (o : option document) : bool :=
  match o with
  | None => false
  | Some d => negb (bool_decide (d = ∅))
  end.

(** A query document [{k1: v1, ...}] matches the documents that hold every
    listed field with that value. *)
Definition matches (query : list (string * value)) (d : document) : bool :=
  forallb (fun kv => bool_decide (d !! kv.1 = Some kv.2)) query.

(** [collection.find_one(query)]: the first matching document, or [None]. *)
Definition find_one (coll : list document) (query : list (string * value))
  : option document :=
  List.find (matches query) coll.

(** ** Exceptions, outcomes and results *)

Record exception := Exception {
  exc_class : string;  (* the class name *)
  exc_str : pystr;     (* str(e) *)
}.

(** What a library call does: it returns, or it raises. *)
Inductive outcome (A : Type) :=
| Done (a : A)
| Throws (e : exception).
Arguments Done {A} a.
Arguments Throws {A} e.

(** What a handler does: it returns a body, raises [HTTPException], or lets
    another exception escape. *)
Inductive result (A : Type) :=
| Return (a : A)
| HTTPException (status_code : Z) (detail : pystr)
| Uncaught (e : exception).
Arguments Return {A} a.
Arguments HTTPException {A} status_code detail.
Arguments Uncaught {A} e.

(** Response bodies. *)
Inductive body :=
| Leaf (v : value)
| Arr (items : list body)
| Obj (fields : list (string * body)).

(** The HTTP status the framework sends: 200 for a returned body, the code
    of an [HTTPException], 500 for an exception that escapes. *)
Definition status_of {A} (r : result A) : Z :=
  match r with
  | Return _ => 200
  | HTTPException c _ => c
  | Uncaught _ => 500
  end.

(** [body[k]] for an object. *)
Fixpoint assoc (k : string) (fields : list (string * body)) : option body :=
  match fields with
  | [] => None
  | (k', b) :: rest => if decide (k' = k) then Some b else assoc k rest
  end.

Definition field (k : string) (b : body) : option body :=
  match b with
  | Obj fields => assoc k fields
  | _ => None
  end.

(** [body["user"][k]] *)
Definition user_field (k : string) (b : body) : option body :=
  field "user" b ≫= field k.

(** The keys of the ["user"] object, in order. *)
Definition user_keys (b : body) : list string :=
  match field "user" b with
  | Some (Obj fields) => fields.*1
  | _ => []
  end.

(** Every key that occurs in a body, at any depth. *)
Fixpoint keys_of (b : body) : list string :=
  match b with
  | Leaf _ => []
  | Arr items => List.concat (map keys_of items)
  | Obj fields =>
      (fix go (l : list (string * body)) : list string :=
         match l with
         | [] => []
         | (k, b') :: rest => k :: keys_of b' ++ go rest
         end) fields
  end.

(** ** The database handle *)

(** What looking up an attribute of an object does. *)
Inductive attr_lookup :=
| AttrMissing                 (* AttributeError: no such attribute *)
| AttrValue (v : value)
| AttrRaises (e : exception).

(** The [db] object imported from the [database] module, when it is not
    [None]: its collections, and what its half of the diagnostic calls does
    ([db.name], [db.list_collection_names()]). [db_next_id] is the state of
    the identifier generator. *)
Record Database := {
  db_name : attr_lookup;
  db_list_collection_names : outcome (list pystr);
  db_collections : gmap string (list document);
  db_next_id : ObjectId;
}.

(** [db[collection_name]]: a collection that was never written is empty. *)
Definition db_getitem (d : Database) (collection_name : string)
  : list document :=
  default [] (db_collections d !! collection_name).

(** [hasattr(obj, attr)]: false on AttributeError, other exceptions pass. *)
Definition hasattr (a : attr_lookup) : outcome bool :=
  match a with
  | AttrMissing => Done false
  | AttrValue _ => Done true
  | AttrRaises e => Throws e
  end.

(** [obj.attr] *)
Definition getattr (a : attr_lookup) : outcome value :=
  match a with
  | AttrMissing => Throws (Exception "AttributeError"
                  (py "'Database' object has no attribute 'name'"))
  | AttrValue v => Done v
  | AttrRaises e => Throws e
  end.

(** ** Imported interfaces *)

(** [str.lower()] *)
Class StrLib := {
  lower : pystr -> pystr;
}.

(** [pwd_context = CryptContext(schemes=["bcrypt"], deprecated="auto")].
    [hash] draws a fresh salt on every call: the randomness it consumes is
    its first argument.  [verify] receives whatever value the document
    holds. *)
Class CryptContext := {
  pwd_context_hash : pystr -> pystr -> outcome pystr;
  pwd_context_verify : pystr -> value -> outcome bool;
}.

(** [from database import create_document]: given the collection name and
    the document it returns a value and leaves the database in a new
    state, or raises. *)
Class DatabaseModule := {
  create_document :
    string -> document -> Database -> outcome (value * Database);
}.

(** ** Request models *)

Module RegisterRequest.
Record t := {
  name : pystr;
  email : pystr;
  password : pystr;
  phone : option pystr;
  city : option pystr;
  blood_group : option pystr;
}.
End RegisterRequest.

Module LoginRequest.
Record t := {
  email : pystr;
  password : pystr;
}.
End LoginRequest.

(** ** GET / *)

Definition read_root : result body :=
  Return (Obj [("message", Leaf (VStr (py "Blood Bank API is running")))]).

(** ** GET /test *)

(** The handler builds its [response] dict and then updates it in place; an
    update made before an exception is raised is still there in the
    handler.  [Diag] threads the dict through the statements and carries
    the exception, if one is raised. *)
Definition Diag (A : Type) : Type :=
  list (string * body) -> outcome A * list (string * body).

#[global] Instance Diag_ret : MRet Diag :=
  fun A a response => (Done a, response).

#[global] Instance Diag_bind : MBind Diag :=
  fun A B k m response =>
    match m response with
    | (Done a, response') => k a response'
    | (Throws e, response') => (Throws e, response')
    end.

(** A library call inside the handler. *)
Definition call {A} (o : outcome A) : Diag A :=
  fun response => (o, response).

(** [response[k] = b] on a dict literal: the key keeps its place. *)
Fixpoint dict_set (k : string) (b : body) (fields : list (string * body))
  : list (string * body) :=
  match fields with
  | [] => [(k, b)]
  | (k', b') :: rest =>
      if decide (k' = k) then (k, b) :: rest
      else (k', b') :: dict_set k b rest
  end.

Definition setitem (k : string) (b : body) : Diag unit :=
  fun response => (Done tt, dict_set k b response).

(** [try: m  except Exception as e: handler e] *)
Definition try_except (m : Diag unit) (handler : exception -> Diag unit)
  : Diag unit :=
  fun response =>
    match m response with
    | (Done a, response') => (Done a, response')
    | (Throws e, response') => handler e response'
    end.

Definition text (s : pystr) : body := Leaf (VStr s).

Definition test_database (db : option Database) (DATABASE_URL : option pystr)
  : result body :=
  let response := [
    ("backend", text (CHECK_MARK ++ py " Running"));
    ("database", text (CROSS_MARK ++ py " Not Available"));
    ("database_url", Leaf VNone);
    ("database_name", Leaf VNone);
    ("connection_status", text (py "Not Connected"));
    ("collections", Arr [])
  ] in
  let run : Diag unit :=
    try_except
      (match db with
       | Some db =>
           setitem "database" (text (CHECK_MARK ++ py " Available"));;
           setitem "database_url"
             (text (if truthy (opt_value DATABASE_URL)
                    then CHECK_MARK ++ py " Set"
                    else CROSS_MARK ++ py " Not Set"));;
           has_name ← call (hasattr (db_name db));
           database_name ←
             (if has_name : bool then call (getattr (db_name db))
              else mret (VStr (CHECK_MARK ++ py " Connected")));
           setitem "database_name" (Leaf database_name);;
           setitem "connection_status" (text (py "Connected"));;
           try_except
             (collections ← call (db_list_collection_names db);
              setitem "collections"
                (Arr (text <$> take 10 collections));;
              setitem "database"
                (text (CHECK_MARK ++ py " Connected & Working")))
             (fun e =>
                setitem "database"
                  (text (WARNING_SIGN ++ py " Connected but Error: "
                         ++ take 50 (exc_str e))))
       | None =>
           setitem "database"
             (text (WARNING_SIGN ++ py " Available but not initialized"))
       end)
      (fun e =>
         setitem "database"
           (text (CROSS_MARK ++ py " Error: " ++ take 50 (exc_str e))))
  in
  match run response with
  | (Done _, response) => Return (Obj response)
  | (Throws e, _) => Uncaught e
  end.

(** ** POST /auth/register and POST /auth/login *)

Section Handlers.
Context {strlib : StrLib} {pwd_context : CryptContext}
  {database : DatabaseModule}.

(** The user document that [register_user] builds. *)
Definition user_document (payload : RegisterRequest.t)
    (password_hash : pystr) : document :=
  list_to_map [
    ("name", VStr (RegisterRequest.name payload));
    ("email", VStr (lower (RegisterRequest.email payload)));
    ("phone", opt_value (RegisterRequest.phone payload));
    ("city", opt_value (RegisterRequest.city payload));
    ("blood_group", opt_value (RegisterRequest.blood_group payload));
    ("role", VStr (py "user"));
    ("password_hash", VStr password_hash);
    ("is_active", VBool true)
  ].

(** [register_user(payload)].  [db] is the module-level handle before the
    call and the second component is the handle after it; [entropy] is
    the randomness that [pwd_context.hash] draws.  [document[k]] reads a
    key of the literal built just above, so it cannot raise. *)
Definition register_user (db : option Database) (entropy : pystr)
    (payload : RegisterRequest.t) : result body * option Database :=
  match db with
  | None => (HTTPException 500 (py "Database not configured"), db)
  | Some d =>
      let existing :=
        find_one (db_getitem d "blooduser")
          [("email", VStr (lower (RegisterRequest.email payload)))] in
      if truthy_doc existing then
        (HTTPException 400 (py "Email already registered"), db)
      else
        match pwd_context_hash entropy (RegisterRequest.password payload)
        with
        | Throws e => (Uncaught e, db)
        | Done password_hash =>
            let document := user_document payload password_hash in
            match create_document "blooduser" document d with
            | Throws e => (Uncaught e, db)
            | Done (inserted_id, d') =>
                (Return (Obj [
                   ("status", text (py "success"));
                   ("message", text (py "Registration successful"));
                   ("user", Obj [
                      ("id", Leaf inserted_id);
                      ("name", Leaf (document !!! "name"));
                      ("email", Leaf (document !!! "email"));
                      ("city", Leaf (document !!! "city"));
                      ("blood_group", Leaf (document !!! "blood_group"))
                    ])
                 ]),
                 Some d')
            end
        end
  end.

(** [login_user(payload)]; it reads the database and leaves it as it is. *)
Definition login_user (db : option Database) (payload : LoginRequest.t)
    : result body :=
  match db with
  | None => HTTPException 500 (py "Database not configured")
  | Some d =>
      let user :=
        find_one (db_getitem d "blooduser")
          [("email", VStr (lower (LoginRequest.email payload)))] in
      if negb (truthy_doc user) then
        HTTPException 401 (py "Invalid email or password")
      else
        let user := default ∅ user in
        match pwd_context_verify (LoginRequest.password payload)
                (dict_get user "password_hash" (VStr []))
        with
        | Throws e => Uncaught e
        | Done verified =>
            if negb verified then
              HTTPException 401 (py "Invalid email or password")
            else if negb (truthy (dict_get user "is_active" (VBool true)))
            then HTTPException 403 (py "Account is inactive")
            else
              Return (Obj [
                ("status", text (py "success"));
                ("message", text (py "Login successful"));
                ("user", Obj [
                   ("id", text (py_str (dict_get user "_id" VNone)));
                   ("name", Leaf (dict_get user "name" VNone));
                   ("email", Leaf (dict_get user "email" VNone));
                   ("city", Leaf (dict_get user "city" VNone));
                   ("blood_group",
                    Leaf (dict_get user "blood_group" VNone))
                 ])
              ])
        end
  end.

End Handlers.

(** ** The store behind [create_document] *)

(** Modelled from the spec: the [database] module, whose [create_document]
    is imported by [main.py] and is not among the sources.  The spec's User
    Store has [insert(user_document) -> generated_id]: it "inserts a new
    user record and returns its generated unique identifier", with "no
    uniqueness enforcement at this layer"; the identifier is "assigned at
    creation" and "never reused".  The record is stored with the identifier
    under [_id] (the field [login_user] reads), at the end of the
    collection, and the generator moves on. *)
Definition spec_create_document (collection_name : string)
    (data : document) (d : Database) : outcome (value * Database) :=
  let generated_id := db_next_id d in
  Done (VOid generated_id,
        {| db_name := db_name d;
           db_list_collection_names := db_list_collection_names d;
           db_collections :=
             <[collection_name :=
                 db_getitem d collection_name
                 ++ [<["_id" := VOid generated_id]> data]]>
               (db_collections d);
           db_next_id := N.succ generated_id |}).

Definition spec_database : DatabaseModule :=
  {| create_document := spec_create_document |}.

(** ** Instances used in the examples *)

(** [str.lower] on the ASCII letters. *)
Definition ascii_lower_char (c : N) : N :=
  if ((65 <=? c) && (c <=? 90))%N then (c + 32)%N else c.

Definition ascii_lower (s : pystr) : pystr := map ascii_lower_char s.

Definition ascii_strlib : StrLib := {| lower := ascii_lower |}.

(** [s] without the prefix [p], when it has it. *)
Fixpoint strip_prefix (p s : pystr) : option pystr :=
  match p, s with
  | [], _ => Some s
  | a :: p', b :: s' => if decide (a = b) then strip_prefix p' s' else None
  | _ :: _, [] => None
  end.

Definition UnknownHashError : exception :=
  Exception "UnknownHashError" (py "hash could not be identified").

Definition ExpectedStringError : exception :=
  Exception "TypeError" (py "hash must be unicode or bytes").

(** A stand-in for the bcrypt context with the shape of passlib's
    [CryptContext.verify]: a hash of [None] is refused, a hash that is not
    a string is a type error, a string that no configured scheme
    identifies (here: one without the ["$2b$"] prefix) raises
    [UnknownHashError], and an identified hash is compared.  The hash
    itself is a placeholder for bcrypt: prefix, salt length, salt,
    secret. *)
Definition toy_hash (entropy secret : pystr) : outcome pystr :=
  Done (py "$2b$" ++ [N.of_nat (length entropy)] ++ entropy ++ secret).

Definition toy_verify (secret : pystr) (hash : value) : outcome bool :=
  match hash with
  | VNone => Done false
  | VStr h =>
      match strip_prefix (py "$2b$") h with
      | Some (n :: rest) =>
          Done (bool_decide (drop (N.to_nat n) rest = secret))
      | _ => Throws UnknownHashError
      end
  | _ => Throws ExpectedStringError
  end.

Definition toy_context : CryptContext :=
  {| pwd_context_hash := toy_hash; pwd_context_verify := toy_verify |}.

(** An empty, reachable database. *)
Definition empty_db : Database :=
  {| db_name := AttrValue (VStr (py "bloodbank"));
     db_list_collection_names := Done [];
     db_collections := ∅;
     db_next_id := 0%N |}.

(** The scenario of the spec: Alice registers as ["Alice@Test.com"]. *)
Definition alice : RegisterRequest.t :=
  {| RegisterRequest.name := py "Alice";
     RegisterRequest.email := py "Alice@Test.com";
     RegisterRequest.password := py "secret1";
     RegisterRequest.phone := None;
     RegisterRequest.city := None;
     RegisterRequest.blood_group := None |}.

Definition register_toy :=
  @register_user ascii_strlib toy_context spec_database.

Definition login_toy := @login_user ascii_strlib toy_context.

(** The database after Alice's registration. *)
Definition alice_db : option Database :=
  (register_toy (Some empty_db) (py "salt") alice).2.

(** ** Vocabulary of the statements *)

(** The user collection. *)
Definition users (d : Database) : list document := db_getitem d "blooduser".

(** The user both handlers look up for a submitted email. *)
Definition find_user `{StrLib} (d : Database) (email : pystr)
  : option document :=
  find_one (users d) [("email", VStr (lower email))].

(** No stored user has this email. *)
Definition email_unknown `{StrLib} (d : Database) (email : pystr) : Prop :=
  Forall (fun u => u !! "email" ≠ Some (VStr (lower email))) (users d).

(** Every stored email is in the lower-case form in which registration
    stores it. *)
Definition emails_normalized `{StrLib} (d : Database) : Prop :=
  Forall (fun u => ∀ s, u !! "email" = Some (VStr s) → lower s = s) (users d).

(** The hasher accepts a password against a hash it made of it. *)
Definition hasher_sound `{CryptContext} : Prop :=
  ∀ entropy secret h,
    pwd_context_hash entropy secret = Done h →
    pwd_context_verify secret (VStr h) = Done true.

(** [registrations d d']: [d'] is the database after any number of further
    calls of /auth/register on [d], whatever their results. *)
Inductive registrations {strlib : StrLib} {pwd_context : CryptContext}
    {database : DatabaseModule} : Database → Database → Prop :=
| registrations_refl d : registrations d d
| registrations_step d entropy payload r d' d'' :
    register_user (Some d) entropy payload = (r, Some d') →
    registrations d' d'' →
    registrations d d''.

(** Two documents that differ at most in their [password_hash]. *)
Definition hash_variant (u u' : document) : Prop :=
  delete "password_hash" u = delete "password_hash" u'.

(** A database that was filled by other means than registration: Bob's
    account is switched off, Carol's document has no [is_active] field and
    Dave's has no [password_hash]. *)
Definition bob_doc : document :=
  list_to_map [
    ("_id", VOid 7%N);
    ("name", VStr (py "Bob"));
    ("email", VStr (py "bob@test.com"));
    ("password_hash", VStr (py "$2b$" ++ [0%N] ++ py "hunter22"));
    ("is_active", VBool false)
  ].

Definition carol_doc : document :=
  list_to_map [
    ("_id", VOid 8%N);
    ("name", VStr (py "Carol"));
    ("email", VStr (py "carol@test.com"));
    ("password_hash", VStr (py "$2b$" ++ [0%N] ++ py "opensesame"))
  ].

Definition dave_doc : document :=
  list_to_map [
    ("_id", VOid 9%N);
    ("name", VStr (py "Dave"));
    ("email", VStr (py "dave@test.com"))
  ].

Definition legacy_db : Database :=
  {| db_name := AttrValue (VStr (py "bloodbank"));
     db_list_collection_names := Done [py "blooduser"];
     db_collections := {[ "blooduser" := [bob_doc; carol_doc; dave_doc] ]};
     db_next_id := 10%N |}.

Definition login_as (email password : string) : LoginRequest.t :=
  {| LoginRequest.email := py email; LoginRequest.password := py password |}.

(** Zoe registers after Alice. *)
Definition zoe : RegisterRequest.t :=
  {| RegisterRequest.name := py "Zoe";
     RegisterRequest.email := py "zoe@test.com";
     RegisterRequest.password := py "letmein";
     RegisterRequest.phone := Some (py "555-0100");
     RegisterRequest.city := Some (py "Pune");
     RegisterRequest.blood_group := Some (py "O+") |}.

Definition alice_database : Database := default empty_db alice_db.

Definition alice_zoe_database : Database :=
  default empty_db (register_toy alice_db (py "pepper") zoe).2.

(** The body of a returned response. *)
Definition body_of (r : result body) : body :=
  match r with
  | Return b => b
  | _ => Leaf VNone
  end.

(** ** Vocabulary of the store invariants *)

(** What the handlers need of [create_document] on the user collection: it
    leaves the documents that were there as they are and puts one document
    behind them, which has the email of the document it was given. *)
Definition inserts_at_end {database : DatabaseModule} : Prop :=
  ∀ data d inserted_id d',
    create_document "blooduser" data d = Done (inserted_id, d') →
    ∃ stored,
      users d' = users d ++ [stored]
      ∧ stored !! "email" = data !! "email".

(** The stored documents that have this email. *)
Definition with_email (d : Database) (email : pystr) : list document :=
  filter (fun u => u !! "email" = Some (VStr email)) (users d).

(** No two stored documents share an email. *)
Definition unique_emails (d : Database) : Prop :=
  ∀ email, (length (with_email d email) ≤ 1)%nat.

(** Erin's [is_active] field is there and holds [None]. *)
Definition erin_doc : document :=
  list_to_map [
    ("_id", VOid 11%N);
    ("name", VStr (py "Erin"));
    ("email", VStr (py "erin@test.com"));
    ("password_hash", VStr (py "$2b$" ++ [0%N] ++ py "correcthorse"));
    ("is_active", VNone)
  ].

Definition erin_db : Database :=
  {| db_name := AttrMissing;
     db_list_collection_names :=
       Throws (Exception "ServerSelectionTimeoutError" (py "timed out"));
     db_collections := {[ "blooduser" := [erin_doc] ]};
     db_next_id := 12%N |}.

(** A context whose [hash] refuses long passwords, as bcrypt does beyond 72
    bytes, and otherwise works like [toy_context]. *)
Definition strict_hash (entropy secret : pystr) : outcome pystr :=
  if (72 <? length secret)%nat then
    Throws (Exception "ValueError"
              (py "password cannot be longer than 72 bytes"))
  else toy_hash entropy secret.

Definition strict_context : CryptContext :=
  {| pwd_context_hash := strict_hash; pwd_context_verify := toy_verify |}.

(** A request whose password has 80 characters. *)
Definition long_password_request : RegisterRequest.t :=
  {| RegisterRequest.name := py "Max";
     RegisterRequest.email := py "max@test.com";
     RegisterRequest.password := replicate 80 120%N;
     RegisterRequest.phone := None;
     RegisterRequest.city := None;
     RegisterRequest.blood_group := None |}.

(** Membership in a list literal. *)
Ltac in_list :=
  repeat first [apply list_elem_of_here | apply list_elem_of_further].

(** * Properties *)

(** ** Lookup *)

Lemma matches_email (v : value) (u : document) :
  matches [("email", v)] u = true ↔ u !! "email" = Some v.
Proof.
  unfold matches; simpl. rewrite andb_true_r. apply bool_decide_eq_true.
Qed.

Lemma find_one_Some coll query u :
  find_one coll query = Some u → u ∈ coll ∧ matches query u = true.
Proof.
  unfold find_one. intros Hf. apply find_some in Hf as [Hin Hm].
  split; [by apply list_elem_of_In | done].
Qed.

Lemma find_one_None coll query :
  find_one coll query = None ↔ Forall (fun u => matches query u = false) coll.
Proof.
  unfold find_one. induction coll as [|u coll IH]; simpl.
  - split; [constructor | done].
  - destruct (matches query u) eqn:Hm.
    + split; [done | by inversion 1; congruence].
    + rewrite IH. split; [by constructor | by inversion 1].
Qed.

Lemma find_one_app coll coll' query :
  find_one (coll ++ coll') query =
  match find_one coll query with
  | Some u => Some u
  | None => find_one coll' query
  end.
Proof.
  unfold find_one. induction coll as [|u coll IH]; simpl; [done |].
  by destruct (matches query u).
Qed.

(** A document found by its email is not the empty dict: the handlers'
    [if existing] and [if not user] test presence. *)
Lemma find_one_email_truthy coll v u :
  find_one coll [("email", v)] = Some u → truthy_doc (Some u) = true.
Proof.
  intros [_ Hm]%find_one_Some. apply matches_email in Hm.
  simpl. apply negb_true_iff, bool_decide_eq_false. by intros ->.
Qed.

Lemma find_user_None `{StrLib} d email :
  find_user d email = None ↔ email_unknown d email.
Proof.
  unfold find_user, email_unknown. rewrite find_one_None.
  apply Forall_proper; [|done]. intros u.
  rewrite <- not_true_iff_false, matches_email. done.
Qed.

(** ** Login: the order of the checks *)

Section Login.
Context `{StrLib} `{CryptContext}.

Lemma login_user_unknown d payload :
  find_user d (LoginRequest.email payload) = None →
  login_user (Some d) payload
  = HTTPException 401 (py "Invalid email or password").
Proof. unfold find_user, users, login_user. by intros ->. Qed.

(** With a user found, the handler is the verification of the password
    followed by the activity check. *)
Lemma login_user_found d payload u :
  find_user d (LoginRequest.email payload) = Some u →
  login_user (Some d) payload =
  match pwd_context_verify (LoginRequest.password payload)
          (dict_get u "password_hash" (VStr []))
  with
  | Throws e => Uncaught e
  | Done false => HTTPException 401 (py "Invalid email or password")
  | Done true =>
      if truthy (dict_get u "is_active" (VBool true)) then
        Return (Obj [
          ("status", text (py "success"));
          ("message", text (py "Login successful"));
          ("user", Obj [
             ("id", text (py_str (dict_get u "_id" VNone)));
             ("name", Leaf (dict_get u "name" VNone));
             ("email", Leaf (dict_get u "email" VNone));
             ("city", Leaf (dict_get u "city" VNone));
             ("blood_group", Leaf (dict_get u "blood_group" VNone))
           ])
        ])
      else HTTPException 403 (py "Account is inactive")
  end.
Proof.
  intros Hf. pose proof (find_one_email_truthy _ _ _ Hf) as Ht.
  unfold find_user, users in Hf. unfold login_user.
  rewrite Hf, Ht. simpl.
  destruct (pwd_context_verify _ _) as [[|]|]; simpl; [|done..].
  by destruct (truthy _).
Qed.

End Login.

(** C3. A login whose email matches no stored user and a login whose email
    matches a stored user but whose password fails verification both fail
    with HTTP 401 and the same message "Invalid email or password": the two
    results are equal, so the response does not tell whether the email
    exists. *)
Theorem login_unknown_email_same_as_wrong_password
    `{StrLib} `{CryptContext} (d1 d2 : Database) (p1 p2 : LoginRequest.t)
    (u : document) :
  email_unknown d1 (LoginRequest.email p1) →
  find_user d2 (LoginRequest.email p2) = Some u →
  pwd_context_verify (LoginRequest.password p2)
    (dict_get u "password_hash" (VStr [])) = Done false →
  login_user (Some d1) p1
    = HTTPException 401 (py "Invalid email or password")
  ∧ login_user (Some d2) p2
    = HTTPException 401 (py "Invalid email or password")
  ∧ login_user (Some d1) p1 = login_user (Some d2) p2
  ∧ status_of (login_user (Some d2) p2) = 401.
Proof.
  intros Hunknown%find_user_None Hfound Hverify.
  rewrite (login_user_unknown _ _ Hunknown).
  rewrite (login_user_found _ _ _ Hfound), Hverify. done.
Qed.

Lemma login_unknown_email_same_as_wrong_password_witness :
  login_toy (Some legacy_db) (login_as "nobody@test.com" "hunter22")
  = login_toy (Some legacy_db) (login_as "Bob@Test.com" "hunter23").
Proof.
  refine (proj1 (proj2 (proj2
    (@login_unknown_email_same_as_wrong_password ascii_strlib toy_context
       legacy_db legacy_db (login_as "nobody@test.com" "hunter22")
       (login_as "Bob@Test.com" "hunter23") bob_doc _ _ _)))).
  - repeat constructor; vm_compute; discriminate.
  - vm_compute; reflexivity.
  - vm_compute; reflexivity.
Defined.

(** C4. In /auth/login the activity check comes only after the password has
    been verified: for a stored user whose [is_active] is false, a login
    with the correct password fails with HTTP 403 "Account is inactive"
    and a login with a wrong password fails with HTTP 401 "Invalid email or
    password". *)
Theorem login_inactive_checked_after_password
    `{StrLib} `{CryptContext} (d : Database) (u : document)
    (p_right p_wrong : LoginRequest.t) :
  find_user d (LoginRequest.email p_right) = Some u →
  find_user d (LoginRequest.email p_wrong) = Some u →
  u !! "is_active" = Some (VBool false) →
  pwd_context_verify (LoginRequest.password p_right)
    (dict_get u "password_hash" (VStr [])) = Done true →
  pwd_context_verify (LoginRequest.password p_wrong)
    (dict_get u "password_hash" (VStr [])) = Done false →
  login_user (Some d) p_right = HTTPException 403 (py "Account is inactive")
  ∧ login_user (Some d) p_wrong
    = HTTPException 401 (py "Invalid email or password").
Proof.
  intros Hright Hwrong Hactive Hok Hbad.
  rewrite (login_user_found _ _ _ Hright), Hok.
  rewrite (login_user_found _ _ _ Hwrong), Hbad.
  unfold dict_get. rewrite Hactive. done.
Qed.

Lemma login_inactive_checked_after_password_witness :
  login_toy (Some legacy_db) (login_as "bob@test.com" "hunter22")
  = HTTPException 403 (py "Account is inactive")
  ∧ login_toy (Some legacy_db) (login_as "bob@test.com" "hunter23")
  = HTTPException 401 (py "Invalid email or password").
Proof.
  apply (@login_inactive_checked_after_password ascii_strlib toy_context
           legacy_db bob_doc);
    vm_compute; reflexivity.
Defined.

(** C9. For a stored user document that has no [is_active] field at all, a
    login with correct credentials succeeds: the missing flag defaults to
    true. *)
Theorem login_missing_is_active_succeeds
    `{StrLib} `{CryptContext} (d : Database) (u : document)
    (payload : LoginRequest.t) :
  find_user d (LoginRequest.email payload) = Some u →
  u !! "is_active" = None →
  pwd_context_verify (LoginRequest.password payload)
    (dict_get u "password_hash" (VStr [])) = Done true →
  status_of (login_user (Some d) payload) = 200
  ∧ ∃ b, login_user (Some d) payload = Return b
         ∧ field "message" b = Some (text (py "Login successful"))
         ∧ user_field "name" b = Some (Leaf (dict_get u "name" VNone)).
Proof.
  intros Hfound Hmissing Hok.
  rewrite (login_user_found _ _ _ Hfound), Hok.
  assert (truthy (dict_get u "is_active" (VBool true)) = true) as ->
    by (unfold dict_get; rewrite Hmissing; done).
  split; [done |]. eexists. repeat split.
Qed.

Lemma login_missing_is_active_succeeds_witness :
  status_of (login_toy (Some legacy_db)
               (login_as "Carol@test.com" "opensesame")) = 200.
Proof.
  apply (@login_missing_is_active_succeeds ascii_strlib toy_context
           legacy_db carol_doc);
    vm_compute; reflexivity.
Defined.

(** ** Registration *)

Lemma user_document_lookups `{StrLib} payload h :
  let document := user_document payload h in
  document !! "name" = Some (VStr (RegisterRequest.name payload))
  ∧ document !! "email" = Some (VStr (lower (RegisterRequest.email payload)))
  ∧ document !! "phone" = Some (opt_value (RegisterRequest.phone payload))
  ∧ document !! "city" = Some (opt_value (RegisterRequest.city payload))
  ∧ document !! "blood_group"
    = Some (opt_value (RegisterRequest.blood_group payload))
  ∧ document !! "role" = Some (VStr (py "user"))
  ∧ document !! "password_hash" = Some (VStr h)
  ∧ document !! "is_active" = Some (VBool true)
  ∧ document !! "_id" = None.
Proof. unfold user_document. simpl. repeat split; by simplify_map_eq. Qed.

Section Register.
Context `{StrLib} `{CryptContext} `{DatabaseModule}.

(** The body of a successful registration. *)
Lemma register_user_Return d entropy payload b st :
  register_user (Some d) entropy payload = (Return b, st) →
  ∃ h inserted_id d',
    find_user d (RegisterRequest.email payload) = None
    ∧ pwd_context_hash entropy (RegisterRequest.password payload) = Done h
    ∧ create_document "blooduser" (user_document payload h) d
      = Done (inserted_id, d')
    ∧ st = Some d'
    ∧ b = Obj [
        ("status", text (py "success"));
        ("message", text (py "Registration successful"));
        ("user", Obj [
           ("id", Leaf inserted_id);
           ("name", Leaf (VStr (RegisterRequest.name payload)));
           ("email", text (lower (RegisterRequest.email payload)));
           ("city", Leaf (opt_value (RegisterRequest.city payload)));
           ("blood_group",
            Leaf (opt_value (RegisterRequest.blood_group payload)))
         ])
      ].
Proof.
  unfold register_user, find_user, users.
  destruct (find_one _ _) as [u|] eqn:Hfind.
  { by rewrite (find_one_email_truthy _ _ _ Hfind). }
  simpl.
  destruct (pwd_context_hash _ _) as [h|e]; [|done].
  destruct (create_document _ _ _) as [[inserted_id d']|e] eqn:Hcreate;
    [|done].
  intros [= <- <-]. exists h, inserted_id, d'.
  destruct (user_document_lookups payload h)
    as (Hname & Hemail & _ & Hcity & Hblood & _).
  rewrite !lookup_total_alt, Hname, Hemail, Hcity, Hblood. done.
Qed.

(** A registration whose email is already there is refused and the
    database stays as it was. *)
Lemma register_user_existing d entropy payload u :
  find_user d (RegisterRequest.email payload) = Some u →
  register_user (Some d) entropy payload
  = (HTTPException 400 (py "Email already registered"), Some d).
Proof.
  intros Hfind. pose proof (find_one_email_truthy _ _ _ Hfind) as Ht.
  unfold find_user, users in Hfind. unfold register_user.
  by rewrite Hfind, Ht.
Qed.

End Register.

(** C7. For every successful registration the [user] object of the response
    has exactly the keys id, name, email, city and blood_group, its email is
    the lower-cased form of the submitted one, and it has neither phone nor
    role; the document handed to the store has role "user" and [is_active]
    true. *)
Theorem register_success_response_and_document
    `{StrLib} `{CryptContext} `{DatabaseModule} (d : Database)
    (entropy : pystr) (payload : RegisterRequest.t) (b : body)
    (st : option Database) :
  register_user (Some d) entropy payload = (Return b, st) →
  user_keys b = ["id"; "name"; "email"; "city"; "blood_group"]
  ∧ user_field "email" b
    = Some (text (lower (RegisterRequest.email payload)))
  ∧ ("phone" ∉ user_keys b)
  ∧ ("role" ∉ user_keys b)
  ∧ ∃ document inserted_id d',
      create_document "blooduser" document d = Done (inserted_id, d')
      ∧ st = Some d'
      ∧ document !! "role" = Some (VStr (py "user"))
      ∧ document !! "is_active" = Some (VBool true)
      ∧ document !! "email"
        = Some (VStr (lower (RegisterRequest.email payload))).
Proof.
  intros (h & inserted_id & d' & _ & _ & Hcreate & -> & ->)
    %register_user_Return.
  destruct (user_document_lookups payload h)
    as (_ & Hemail & _ & _ & _ & Hrole & _ & Hactive & _).
  repeat split; try done.
  - cbn. by apply (bool_decide_unpack _).
  - cbn. by apply (bool_decide_unpack _).
  - by exists (user_document payload h), inserted_id, d'.
Qed.

Lemma register_success_response_and_document_witness :
  user_keys (body_of (register_toy (Some empty_db) (py "salt") alice).1)
  = ["id"; "name"; "email"; "city"; "blood_group"].
Proof.
  refine (proj1
    (@register_success_response_and_document ascii_strlib toy_context
       spec_database empty_db (py "salt") alice _
       (register_toy (Some empty_db) (py "salt") alice).2 _)).
  vm_compute; reflexivity.
Defined.

(** C2. If the email of a registration request matches, compared without
    regard to case, the email of a user that is already stored, then
    /auth/register fails with HTTP 400 "Email already registered" and the
    database is left as it was: no document is inserted.  Stored emails are
    in the lower-case form registration gives them. *)
Theorem register_duplicate_email_rejected
    `{StrLib} `{CryptContext} `{DatabaseModule} (d : Database)
    (entropy : pystr) (payload : RegisterRequest.t) (u : document)
    (stored : pystr) :
  emails_normalized d →
  u ∈ users d →
  u !! "email" = Some (VStr stored) →
  lower stored = lower (RegisterRequest.email payload) →
  register_user (Some d) entropy payload
  = (HTTPException 400 (py "Email already registered"), Some d)
  ∧ status_of (register_user (Some d) entropy payload).1 = 400
  ∧ (users <$> (register_user (Some d) entropy payload).2) = Some (users d).
Proof.
  intros Hnorm Hin Hemail Hsame.
  assert (∃ u', find_user d (RegisterRequest.email payload) = Some u')
    as [u' Hfind].
  { destruct (find_user d (RegisterRequest.email payload)) eqn:Hfind;
      [by eexists |].
    apply find_user_None in Hfind.
    unfold email_unknown in Hfind. rewrite Forall_forall in Hfind.
    destruct (Hfind u Hin).
    unfold emails_normalized in Hnorm. rewrite Forall_forall in Hnorm.
    rewrite <- Hsame, (Hnorm u Hin stored Hemail). done. }
  rewrite (register_user_existing _ _ _ _ Hfind). done.
Qed.

Lemma register_duplicate_email_rejected_witness :
  register_toy alice_db (py "pepper") alice
  = (HTTPException 400 (py "Email already registered"), alice_db).
Proof.
  refine (proj1
    (@register_duplicate_email_rejected ascii_strlib toy_context
       spec_database alice_database (py "pepper") alice
       (<["_id" := VOid 0%N]>
          (@user_document ascii_strlib alice
             (py "$2b$" ++ [4%N] ++ py "salt" ++ py "secret1")))
       (py "alice@test.com") _ _ _ _)).
  - repeat constructor. intros s [= <-]. vm_compute; reflexivity.
  - vm_compute. apply list_elem_of_here.
  - vm_compute; reflexivity.
  - vm_compute; reflexivity.
Defined.

(** ** Registration on the store of the spec *)

Lemma spec_create_document_users data d :
  ∃ d', spec_create_document "blooduser" data d
        = Done (VOid (db_next_id d), d')
        ∧ users d' = users d ++ [<["_id" := VOid (db_next_id d)]> data]
        ∧ db_next_id d' = N.succ (db_next_id d).
Proof.
  eexists. split; [reflexivity |]. split; [|done].
  unfold users at 1, db_getitem at 1. simpl. by rewrite lookup_insert_eq.
Qed.

Section SpecStore.
Context `{StrLib} `{CryptContext}.
#[local] Existing Instance spec_database.

(** A call of /auth/register leaves the collection as it was or puts one
    document at its end. *)
Lemma register_user_users d entropy payload r d' :
  register_user (Some d) entropy payload = (r, Some d') →
  users d' = users d
  ∨ ∃ h,
      find_user d (RegisterRequest.email payload) = None
      ∧ pwd_context_hash entropy (RegisterRequest.password payload)
        = Done h
      ∧ users d'
        = users d
          ++ [<["_id" := VOid (db_next_id d)]> (user_document payload h)].
Proof.
  destruct r as [b|c m|e].
  - intros (h & id & d2 & Hnone & Hhash & Hcreate & [= ->] & _)
      %register_user_Return.
    right. exists h. split; [done |]. split; [done |].
    destruct (spec_create_document_users (user_document payload h) d)
      as (d3 & Hspec & Husers & _).
    simpl in Hcreate. rewrite Hspec in Hcreate.
    by injection Hcreate as _ <-.
  - unfold register_user.
    destruct (truthy_doc _); [by intros [= _ _ <-]; left |].
    destruct (pwd_context_hash _ _); [|done].
    simpl. done.
  - unfold register_user. destruct (truthy_doc _); [done |].
    destruct (pwd_context_hash _ _); [|by intros [= _ <-]; left].
    simpl. done.
Qed.

(** A user that a lookup finds is still the one it finds afterwards: later
    documents go behind it. *)
Lemma register_user_keeps_found d entropy payload r d' email u :
  register_user (Some d) entropy payload = (r, Some d') →
  find_user d email = Some u →
  find_user d' email = Some u.
Proof.
  intros [Hsame | (h & _ & _ & Happ)]%register_user_users;
    unfold find_user.
  - by rewrite Hsame.
  - intros Hfind. by rewrite Happ, find_one_app, Hfind.
Qed.

Lemma registrations_keep_found d d' email u :
  registrations d d' →
  find_user d email = Some u →
  find_user d' email = Some u.
Proof.
  induction 1 as [|d entropy payload r d' d'' Hstep _ IH]; [done |].
  intros Hfind. apply IH. by eapply register_user_keeps_found.
Qed.

(** After a successful registration the lookup of the email finds the new
    document. *)
Lemma register_user_then_found d entropy payload b d' :
  register_user (Some d) entropy payload = (Return b, Some d') →
  ∃ h,
    pwd_context_hash entropy (RegisterRequest.password payload) = Done h
    ∧ find_user d' (RegisterRequest.email payload)
      = Some (<["_id" := VOid (db_next_id d)]> (user_document payload h))
    ∧ user_field "id" b = Some (Leaf (VOid (db_next_id d))).
Proof.
  intros (h & id & d2 & Hnone & Hhash & Hcreate & [= ->] & ->)
    %register_user_Return.
  destruct (spec_create_document_users (user_document payload h) d)
    as (d3 & Hspec & Husers & _).
  simpl in Hcreate. rewrite Hspec in Hcreate.
  injection Hcreate as <- <-.
  exists h. split; [done |]. split; [|done].
  unfold find_user in *. rewrite Husers, find_one_app, Hnone.
  destruct (user_document_lookups payload h) as (_ & Hemail & _).
  unfold find_one. cbn [List.find].
  assert (matches
            [("email", VStr (lower (RegisterRequest.email payload)))]
            (<["_id" := VOid (db_next_id d)]> (user_document payload h))
          = true) as ->; [|done].
  apply matches_email. by rewrite lookup_insert_ne.
Qed.

(** The document that a successful registration leaves in the collection:
    the one it built, under its new [_id], an active account of role
    "user". *)
Lemma register_user_stored_document d entropy payload b d' :
  register_user (Some d) entropy payload = (Return b, Some d') →
  ∃ u,
    last (users d') = Some u
    ∧ u !! "role" = Some (VStr (py "user"))
    ∧ u !! "is_active" = Some (VBool true)
    ∧ u !! "email" = Some (VStr (lower (RegisterRequest.email payload)))
    ∧ u !! "_id" = Some (VOid (db_next_id d)).
Proof.
  intros Hreg.
  destruct (register_user_users _ _ _ _ _ Hreg)
    as [Hsame | (h & Hnone & _ & Happ)].
  - destruct (register_user_then_found _ _ _ _ _ Hreg)
      as (h & _ & Hfound & _).
    destruct (register_user_Return _ _ _ _ _ Hreg)
      as (? & ? & ? & Hnone & _).
    unfold find_user in Hfound, Hnone. rewrite Hsame in Hfound. congruence.
  - destruct (user_document_lookups payload h)
      as (_ & He & _ & _ & _ & Hr & _ & Ha & _).
    eexists. rewrite Happ, last_snoc. split; [done |].
    rewrite !lookup_insert_ne by done. by rewrite lookup_insert_eq.
Qed.

(** Registering the same email again, in any case and after any number of
    other registrations, is refused and inserts nothing. *)
Lemma register_twice_rejected d entropy payload b d' d'' entropy' payload' :
  register_user (Some d) entropy payload = (Return b, Some d') →
  registrations d' d'' →
  lower (RegisterRequest.email payload')
  = lower (RegisterRequest.email payload) →
  register_user (Some d'') entropy' payload'
  = (HTTPException 400 (py "Email already registered"), Some d'').
Proof.
  intros (h & _ & Hfound & _)%register_user_then_found Hlater Hemail.
  apply (registrations_keep_found _ _ _ _ Hlater) in Hfound.
  apply (register_user_existing _ _ _
           (<["_id" := VOid (db_next_id d)]> (user_document payload h))).
  unfold find_user in *. by rewrite Hemail.
Qed.

End SpecStore.

(** C1. After a successful /auth/register, and after any number of further
    registrations, /auth/login with the same email (after lower-casing) and
    the same password succeeds with status 200; the fields of its [user]
    object are those of the stored document [u]: the id is the string form
    of the stored [_id] that registration returned, and name, email, city
    and blood_group are the values of the registration response. *)
Theorem login_after_register_succeeds
    `{StrLib} `{CryptContext} (d d' d'' : Database) (entropy : pystr)
    (payload : RegisterRequest.t) (b_reg : body) (q : LoginRequest.t) :
  hasher_sound →
  register_user (database := spec_database) (Some d) entropy payload
  = (Return b_reg, Some d') →
  registrations (database := spec_database) d' d'' →
  lower (LoginRequest.email q) = lower (RegisterRequest.email payload) →
  LoginRequest.password q = RegisterRequest.password payload →
  ∃ b u,
    login_user (Some d'') q = Return b
    ∧ status_of (login_user (Some d'') q) = 200
    ∧ u ∈ users d''
    ∧ u !! "is_active" = Some (VBool true)
    ∧ user_field "id" b_reg = Some (Leaf (dict_get u "_id" VNone))
    ∧ user_field "id" b = Some (text (py_str (dict_get u "_id" VNone)))
    ∧ ∀ k, k ∈ ["name"; "email"; "city"; "blood_group"] →
        user_field k b = Some (Leaf (dict_get u k VNone))
        ∧ user_field k b = user_field k b_reg.
Proof.
  intros Hsound Hreg Hlater Hemail Hpassword.
  destruct (register_user_then_found _ _ _ _ _ Hreg)
    as (h & Hhash & Hfound & Hid).
  apply register_user_Return in Hreg
    as (h' & id & d2 & _ & Hhash' & _ & _ & ->).
  rewrite Hhash in Hhash'. injection Hhash' as <-.
  set (u := <["_id" := VOid (db_next_id d)]> (user_document payload h)) in *.
  apply (registrations_keep_found _ _ _ _ Hlater) in Hfound.
  assert (find_user d'' (LoginRequest.email q) = Some u) as Hq
    by (unfold find_user in *; by rewrite Hemail).
  destruct (user_document_lookups payload h)
    as (Hn & He & _ & Hc & Hb & _ & Hp & Ha & _).
  assert (∀ k, k ≠ "_id" →
            dict_get u k VNone = default VNone (user_document payload h !! k))
    as Hget by (intros k Hk; unfold dict_get, u; by rewrite lookup_insert_ne).
  assert (dict_get u "password_hash" (VStr []) = VStr h) as Hh.
  { unfold dict_get, u. by rewrite lookup_insert_ne, Hp. }
  assert (dict_get u "is_active" (VBool true) = VBool true) as Hact.
  { unfold dict_get, u. by rewrite lookup_insert_ne, Ha. }
  assert (dict_get u "_id" VNone = VOid (db_next_id d)) as Hoid.
  { unfold dict_get, u. by rewrite lookup_insert_eq. }
  rewrite (login_user_found _ _ _ Hq), Hh, Hpassword.
  rewrite (Hsound _ _ _ Hhash), Hact. simpl.
  eexists _, u. split; [done |]. split; [done |].
  split; [by apply find_one_Some in Hq as [? _] |].
  split; [by unfold u; rewrite lookup_insert_ne |].
  split; [by rewrite Hid, Hoid |].
  split; [done |].
  intros k Hk.
  repeat (apply elem_of_cons in Hk as [-> | Hk]);
    [| | | | by apply elem_of_nil in Hk];
    (split; [reflexivity |]).
  - change (Some (Leaf (dict_get u "name" VNone))
            = Some (Leaf (VStr (RegisterRequest.name payload)))).
    by rewrite Hget, Hn.
  - change (Some (Leaf (dict_get u "email" VNone))
            = Some (Leaf (VStr (lower (RegisterRequest.email payload))))).
    by rewrite Hget, He.
  - change (Some (Leaf (dict_get u "city" VNone))
            = Some (Leaf (opt_value (RegisterRequest.city payload)))).
    by rewrite Hget, Hc.
  - change (Some (Leaf (dict_get u "blood_group" VNone))
            = Some (Leaf (opt_value (RegisterRequest.blood_group payload)))).
    by rewrite Hget, Hb.
Qed.

Lemma strip_prefix_app p s : strip_prefix p (p ++ s) = Some s.
Proof.
  induction p as [|a p IH]; simpl; [by destruct s |].
  by rewrite decide_True.
Qed.

Lemma toy_context_sound : @hasher_sound toy_context.
Proof.
  intros entropy secret h Hh.
  assert (h = py "$2b$" ++ [N.of_nat (length entropy)] ++ entropy ++ secret)
    as -> by (cbv [pwd_context_hash toy_context toy_hash] in Hh; congruence).
  cbv [pwd_context_verify toy_context toy_verify].
  rewrite strip_prefix_app. cbn [app].
  by rewrite Nat2N.id, drop_app_length, bool_decide_eq_true_2.
Qed.

Lemma login_after_register_succeeds_witness :
  ∃ b u,
    login_toy (Some alice_zoe_database) (login_as "ALICE@test.com" "secret1")
    = Return b
    ∧ status_of (login_toy (Some alice_zoe_database)
                   (login_as "ALICE@test.com" "secret1")) = 200
    ∧ u ∈ users alice_zoe_database
    ∧ u !! "is_active" = Some (VBool true)
    ∧ user_field "id"
        (body_of (register_toy (Some empty_db) (py "salt") alice).1)
      = Some (Leaf (dict_get u "_id" VNone))
    ∧ user_field "id" b = Some (text (py_str (dict_get u "_id" VNone)))
    ∧ ∀ k, k ∈ ["name"; "email"; "city"; "blood_group"] →
        user_field k b = Some (Leaf (dict_get u k VNone))
        ∧ user_field k b
          = user_field k
              (body_of (register_toy (Some empty_db) (py "salt") alice).1).
Proof.
  apply (@login_after_register_succeeds ascii_strlib toy_context
           empty_db alice_database alice_zoe_database (py "salt") alice).
  - exact toy_context_sound.
  - vm_compute; reflexivity.
  - apply (@registrations_step ascii_strlib toy_context spec_database
             alice_database (py "pepper") zoe
             (register_toy alice_db (py "pepper") zoe).1
             alice_zoe_database alice_zoe_database);
      [vm_compute; reflexivity | apply registrations_refl].
  - vm_compute; reflexivity.
  - reflexivity.
Defined.

(** ** Diagnostics *)

(** C8. GET /test never fails: it returns a body for every state of the
    database handle.  An exception raised while the handle is probed, by
    the [name] lookup or by [list_collection_names()], is caught and put
    into the ["database"] entry as its text cut to 50 characters, and the
    ["collections"] entry holds at most the first 10 collection names. *)
Theorem test_database_never_fails (db : option Database)
    (DATABASE_URL : option pystr) :
  ∃ fields names,
    test_database db DATABASE_URL = Return (Obj fields)
    ∧ status_of (test_database db DATABASE_URL) = 200
    ∧ fields.*1 = ["backend"; "database"; "database_url"; "database_name";
                   "connection_status"; "collections"]
    ∧ assoc "collections" fields = Some (Arr (text <$> names))
    ∧ (length names ≤ 10)%nat
    ∧ (db = None →
       names = []
       ∧ assoc "database" fields
         = Some (text (WARNING_SIGN
                       ++ py " Available but not initialized")))
    ∧ (∀ d e,
         db = Some d →
         db_name d = AttrRaises e →
         names = []
         ∧ assoc "database" fields
           = Some (text (CROSS_MARK ++ py " Error: "
                         ++ take 50 (exc_str e)))
         ∧ (length (take 50 (exc_str e)) ≤ 50)%nat)
    ∧ (∀ d e,
         db = Some d →
         (∀ e', db_name d ≠ AttrRaises e') →
         db_list_collection_names d = Throws e →
         names = []
         ∧ assoc "database" fields
           = Some (text (WARNING_SIGN ++ py " Connected but Error: "
                         ++ take 50 (exc_str e)))
         ∧ (length (take 50 (exc_str e)) ≤ 50)%nat)
    ∧ (∀ d collections,
         db = Some d →
         (∀ e', db_name d ≠ AttrRaises e') →
         db_list_collection_names d = Done collections →
         names = take 10 collections
         ∧ assoc "database" fields
           = Some (text (CHECK_MARK ++ py " Connected & Working"))).
Proof.
  destruct db as [[name listing colls next]|].
  - destruct name as [|v|e];
      [destruct listing as [collections|e]
      |destruct listing as [collections|e] |].
    1, 3: eexists _, (take 10 collections).
    3, 4, 5: eexists _, [].
    all: split; [reflexivity |].
    all: split; [reflexivity |].
    all: split; [reflexivity |].
    all: split; [reflexivity |].
    all: split; [first [rewrite length_take; lia | simpl; lia] |].
    all: split; [done |].
    all: split; [intros d e' [= <-] Hname; simpl in Hname |].
    all: try discriminate Hname.
    all: try (injection Hname as <-;
              split; [done |]; split; [reflexivity |];
              rewrite length_take; lia).
    all: split; intros d x [= <-] Hname Hlisting; simpl in *.
    all: try discriminate Hlisting.
    all: try by destruct (Hname e).
    all: injection Hlisting as <-.
    all: split; [done |]; try reflexivity.
    all: split; [reflexivity |]; rewrite length_take; lia.
  - eexists _, []. split; [reflexivity |].
    repeat (split; [try reflexivity; try done; simpl; lia |]).
    repeat split; try reflexivity; try done.
Qed.

(** ** Identifiers *)

(** The body of a successful login and the user it was built from. *)
Lemma login_user_Return `{StrLib} `{CryptContext} db payload b :
  login_user db payload = Return b →
  ∃ d u,
    db = Some d
    ∧ find_user d (LoginRequest.email payload) = Some u
    ∧ pwd_context_verify (LoginRequest.password payload)
        (dict_get u "password_hash" (VStr [])) = Done true
    ∧ truthy (dict_get u "is_active" (VBool true)) = true
    ∧ b = Obj [
        ("status", text (py "success"));
        ("message", text (py "Login successful"));
        ("user", Obj [
           ("id", text (py_str (dict_get u "_id" VNone)));
           ("name", Leaf (dict_get u "name" VNone));
           ("email", Leaf (dict_get u "email" VNone));
           ("city", Leaf (dict_get u "city" VNone));
           ("blood_group", Leaf (dict_get u "blood_group" VNone))
         ])
      ].
Proof.
  destruct db as [d|]; [|done].
  destruct (find_user d (LoginRequest.email payload)) as [u|] eqn:Hfind.
  - rewrite (login_user_found _ _ _ Hfind).
    destruct (pwd_context_verify _ _) as [[|]|] eqn:Hverify; [|done..].
    destruct (truthy _) eqn:Hactive; [|done].
    intros [= <-]. by exists d, u.
  - by rewrite (login_user_unknown _ _ Hfind).
Qed.

(** C10. The id of a successful registration response is the value that
    [create_document] returned, as it is; the id of a successful login
    response is the string form of the stored document's [_id].  So the two
    endpoints may give the id of one user in different forms: on the store
    of the spec, which returns the generated identifier itself, Alice's
    registration answers with the ObjectId and her login with its 24 hex
    digits. *)
Theorem register_id_raw_login_id_string :
  (∀ (S : StrLib) (C : CryptContext) (D : DatabaseModule) d entropy payload
     b st,
     register_user (Some d) entropy payload = (Return b, st) →
     ∃ h inserted_id d',
       create_document "blooduser" (user_document payload h) d
       = Done (inserted_id, d')
       ∧ user_field "id" b = Some (Leaf inserted_id))
  ∧ (∀ (S : StrLib) (C : CryptContext) db payload b,
       login_user db payload = Return b →
       ∃ d u,
         db = Some d
         ∧ find_user d (LoginRequest.email payload) = Some u
         ∧ user_field "id" b
           = Some (Leaf (VStr (py_str (dict_get u "_id" VNone)))))
  ∧ user_field "id"
      (body_of (register_toy (Some empty_db) (py "salt") alice).1)
    = Some (Leaf (VOid 0%N))
  ∧ user_field "id"
      (body_of (login_toy alice_db (login_as "alice@test.com" "secret1")))
    = Some (Leaf (VStr (py "000000000000000000000000"))).
Proof.
  split; [|split; [|split]].
  - intros S C D d entropy payload b st
      (h & inserted_id & d' & _ & _ & Hcreate & _ & ->)%register_user_Return.
    by exists h, inserted_id, d'.
  - intros S C db payload b
      (d & u & -> & Hfind & _ & _ & ->)%login_user_Return.
    by exists d, u.
  - vm_compute; reflexivity.
  - vm_compute; reflexivity.
Qed.

(** ** Exceptions of the hasher *)

(** C5 (fails on the code). [login_user] calls [pwd_context.verify] with no
    handler around it: when the stored document has no [password_hash] the
    empty string is verified, and if the context raises on it the exception
    leaves the handler, which answers 500 and not 401. *)
Theorem login_missing_hash_raises
    `{StrLib} `{CryptContext} (d : Database) (u : document)
    (payload : LoginRequest.t) (e : exception) :
  find_user d (LoginRequest.email payload) = Some u →
  u !! "password_hash" = None →
  pwd_context_verify (LoginRequest.password payload) (VStr []) = Throws e →
  login_user (Some d) payload = Uncaught e
  ∧ status_of (login_user (Some d) payload) = 500.
Proof.
  intros Hfind Hmissing Hraise.
  rewrite (login_user_found _ _ _ Hfind).
  unfold dict_get. rewrite Hmissing. simpl. by rewrite Hraise.
Qed.

Lemma login_missing_hash_raises_witness :
  login_toy (Some legacy_db) (login_as "dave@test.com" "anything")
  = Uncaught UnknownHashError
  ∧ status_of (login_toy (Some legacy_db)
                 (login_as "dave@test.com" "anything")) = 500.
Proof.
  apply (@login_missing_hash_raises ascii_strlib toy_context legacy_db
           dave_doc);
    vm_compute; reflexivity.
Defined.

(** ** The password hash stays inside *)

Lemma keys_of_texts (l : list pystr) :
  List.concat (map keys_of (text <$> l)) = [].
Proof. induction l as [|s l IH]; [done |]. simpl. exact IH. Qed.

Lemma hash_variant_lookup u u' k :
  hash_variant u u' → k ≠ "password_hash" → u !! k = u' !! k.
Proof.
  intros Hv Hk.
  rewrite <- (lookup_delete_ne u "password_hash" k) by done.
  rewrite <- (lookup_delete_ne u' "password_hash" k) by done.
  unfold hash_variant in Hv. by rewrite Hv.
Qed.

Lemma hash_variant_dict_get u u' k dflt :
  hash_variant u u' → k ≠ "password_hash" →
  dict_get u k dflt = dict_get u' k dflt.
Proof. intros Hv Hk. unfold dict_get. by rewrite (hash_variant_lookup u u'). Qed.

(** Lookups by email in two collections that differ only in the hashes find
    documents at the same place. *)
Lemma find_one_hash_variant coll coll' v :
  Forall2 hash_variant coll coll' →
  option_Forall2 hash_variant
    (find_one coll [("email", v)]) (find_one coll' [("email", v)]).
Proof.
  unfold find_one.
  induction 1 as [|u u' coll coll' Hv _ IH]; cbn [List.find];
    [constructor |].
  assert (matches [("email", v)] u = matches [("email", v)] u') as ->.
  { unfold matches. simpl.
    by rewrite (hash_variant_lookup u u' "email"). }
  destruct (matches _ u'); [by constructor | exact IH].
Qed.

Lemma test_database_keys db DATABASE_URL b :
  test_database db DATABASE_URL = Return b →
  keys_of b = ["backend"; "database"; "database_url"; "database_name";
               "connection_status"; "collections"].
Proof.
  destruct db as [[name listing colls next]|];
    [destruct name as [|v|e]; [destruct listing | destruct listing |] |];
    intros [= <-]; cbn; by rewrite ?keys_of_texts.
Qed.

(** C6. No response of /auth/register, /auth/login, / or /test contains the
    stored password hash.  No body has a [password_hash] key at any depth
    and every error detail is one of four fixed messages; and no body
    depends on the stored hashes: a login answers the same on two databases
    that differ only in the [password_hash] fields (as long as the
    verification of the submitted password comes out the same), a
    registration answers the same whichever hash it stored, and /test does
    not read the collections at all. *)
Theorem password_hash_never_in_response :
  (∀ (S : StrLib) (C : CryptContext) (D : DatabaseModule) db entropy payload
     b st,
     register_user db entropy payload = (Return b, st) →
     "password_hash" ∉ keys_of b)
  ∧ (∀ (S : StrLib) (C : CryptContext) db payload b,
       login_user db payload = Return b → "password_hash" ∉ keys_of b)
  ∧ ("password_hash" ∉ keys_of (body_of read_root))
  ∧ (∀ db DATABASE_URL b,
       test_database db DATABASE_URL = Return b →
       "password_hash" ∉ keys_of b)
  ∧ (∀ (S : StrLib) (C : CryptContext) (D : DatabaseModule) db entropy
       payload c detail st,
       register_user db entropy payload = (HTTPException c detail, st) →
       detail ∈ [py "Database not configured";
                 py "Email already registered"])
  ∧ (∀ (S : StrLib) (C : CryptContext) db payload c detail,
       login_user db payload = HTTPException c detail →
       detail ∈ [py "Database not configured";
                 py "Invalid email or password";
                 py "Account is inactive"])
  ∧ (∀ (S : StrLib) (C : CryptContext) d d' payload,
       Forall2 hash_variant (users d) (users d') →
       (∀ u u',
          find_user d (LoginRequest.email payload) = Some u →
          find_user d' (LoginRequest.email payload) = Some u' →
          pwd_context_verify (LoginRequest.password payload)
            (dict_get u "password_hash" (VStr []))
          = pwd_context_verify (LoginRequest.password payload)
              (dict_get u' "password_hash" (VStr []))) →
       login_user (Some d) payload = login_user (Some d') payload)
  ∧ (∀ (S : StrLib) (C : CryptContext) d entropy entropy' payload h h',
       pwd_context_hash entropy (RegisterRequest.password payload)
       = Done h →
       pwd_context_hash entropy' (RegisterRequest.password payload)
       = Done h' →
       (register_user (database := spec_database) (Some d) entropy
          payload).1
       = (register_user (database := spec_database) (Some d) entropy'
            payload).1)
  ∧ (∀ d d' DATABASE_URL,
       db_name d = db_name d' →
       db_list_collection_names d = db_list_collection_names d' →
       test_database (Some d) DATABASE_URL
       = test_database (Some d') DATABASE_URL).
Proof.
  repeat apply conj.
  - intros S C D [d|] entropy payload b st; [|done].
    intros (h & id & d' & _ & _ & _ & _ & ->)%register_user_Return.
    cbn. by apply (bool_decide_unpack _).
  - intros S C db payload b
      (d & u & _ & _ & _ & _ & ->)%login_user_Return.
    cbn. by apply (bool_decide_unpack _).
  - cbn. by apply (bool_decide_unpack _).
  - intros db url b ->%test_database_keys.
    by apply (bool_decide_unpack _).
  - intros S C D [d|] entropy payload c detail st; unfold register_user.
    + destruct (truthy_doc _); [intros [= _ <- _]; in_list |].
      destruct (pwd_context_hash _ _); [|done].
      by destruct (create_document _ _ _) as [[??]|].
    + intros [= _ <- _]. in_list.
  - intros S C [d|] payload c detail; [|intros [= _ <-]; in_list].
    destruct (find_user d (LoginRequest.email payload)) as [u|] eqn:Hfind.
    + rewrite (login_user_found _ _ _ Hfind).
      destruct (pwd_context_verify _ _) as [[|]|];
        [|intros [= _ <-]; in_list | done].
      destruct (truthy _); [done |]. intros [= _ <-]. in_list.
    + rewrite (login_user_unknown _ _ Hfind). intros [= _ <-]. in_list.
  - intros S C d d' payload Husers Hverify.
    pose proof (find_one_hash_variant _ _
                  (VStr (lower (LoginRequest.email payload))) Husers)
      as Hfind.
    fold (find_user d (LoginRequest.email payload)) in Hfind.
    fold (find_user d' (LoginRequest.email payload)) in Hfind.
    destruct (find_user d (LoginRequest.email payload)) as [u|] eqn:Hu;
      destruct (find_user d' (LoginRequest.email payload)) as [u'|] eqn:Hu';
      inversion Hfind as [? ? Hv|]; subst.
    + rewrite (login_user_found _ _ _ Hu), (login_user_found _ _ _ Hu').
      rewrite (Hverify u u' eq_refl eq_refl).
      by rewrite !(hash_variant_dict_get u u').
    + by rewrite (login_user_unknown _ _ Hu), (login_user_unknown _ _ Hu').
  - intros S C d entropy entropy' payload h h' Hh Hh'.
    unfold register_user. destruct (truthy_doc _); [done |].
    rewrite Hh, Hh'.
    cbv [create_document spec_database spec_create_document fst].
    destruct (user_document_lookups payload h)
      as (Hn & He & _ & Hc & Hb & _).
    destruct (user_document_lookups payload h')
      as (Hn' & He' & _ & Hc' & Hb' & _).
    rewrite !lookup_total_alt.
    by rewrite Hn, He, Hc, Hb, Hn', He', Hc', Hb'.
  - intros [name listing colls next] [name' listing' colls' next'] url.
    simpl. by intros -> ->.
Qed.

(** ** The stored emails *)

(** Registration keeps the stored emails in lower case, given that
    lower-casing twice is lower-casing once. *)
Lemma register_user_keeps_normalized `{StrLib} `{CryptContext}
    d entropy payload r d' :
  (∀ s, lower (lower s) = lower s) →
  emails_normalized d →
  register_user (database := spec_database) (Some d) entropy payload
  = (r, Some d') →
  emails_normalized d'.
Proof.
  intros Hidem Hnorm [Hsame | (h & _ & _ & Happ)]%register_user_users;
    unfold emails_normalized in *.
  - by rewrite Hsame.
  - rewrite Happ. apply Forall_app. split; [done |].
    apply Forall_singleton. intros s.
    rewrite lookup_insert_ne by done.
    destruct (user_document_lookups payload h) as (_ & -> & _).
    by intros [= <-].
Qed.

Lemma empty_db_normalized `{StrLib} : emails_normalized empty_db.
Proof. constructor. Qed.

(** On a database whose stored email kept its capitals (it was not written
    by /auth/register) the lookup of the lower-cased email finds nothing and
    the registration goes through. *)
Example register_next_to_raw_email :
  let raw : document := {[ "email" := VStr (py "A@B.com") ]} in
  let d :=
    {| db_name := AttrMissing;
       db_list_collection_names := Done [];
       db_collections := {[ "blooduser" := [raw] ]};
       db_next_id := 1%N |} in
  status_of
    (register_toy (Some d) (py "salt")
       {| RegisterRequest.name := py "A";
          RegisterRequest.email := py "a@b.com";
          RegisterRequest.password := py "secret1";
          RegisterRequest.phone := None;
          RegisterRequest.city := None;
          RegisterRequest.blood_group := None |}).1 = 200.
Proof. vm_compute; reflexivity. Qed.

(** ** The scenario of the spec *)

Example alice_registers :
  user_field "email"
    (body_of (register_toy (Some empty_db) (py "salt") alice).1)
  = Some (text (py "alice@test.com")).
Proof. vm_compute; reflexivity. Qed.

Example alice_wrong_password :
  login_toy alice_db (login_as "alice@test.com" "wrong")
  = HTTPException 401 (py "Invalid email or password").
Proof. vm_compute; reflexivity. Qed.

Example alice_logs_in :
  let r := login_toy alice_db (login_as "alice@test.com" "secret1") in
  status_of r = 200
  ∧ user_field "name" (body_of r) = Some (text (py "Alice"))
  ∧ user_field "email" (body_of r) = Some (text (py "alice@test.com"))
  ∧ user_field "city" (body_of r) = Some (Leaf VNone)
  ∧ user_field "blood_group" (body_of r) = Some (Leaf VNone).
Proof. vm_compute. repeat split. Qed.

Example database_not_configured :
  (register_toy None (py "salt") alice).1
  = HTTPException 500 (py "Database not configured")
  ∧ login_toy None (login_as "alice@test.com" "secret1")
    = HTTPException 500 (py "Database not configured").
Proof. split; reflexivity. Qed.


(** * Further properties of the handlers *)

(** ** Login: which answer when *)

(** X1. On a configured database /auth/login answers 200 exactly when a
    user with the lower-cased email is found, the hasher accepts the
    password against the stored hash, and [is_active] (true when missing) is
    truthy. *)
Theorem login_succeeds_iff_verified_and_active
    `{StrLib} `{CryptContext} (d : Database) (payload : LoginRequest.t) :
  status_of (login_user (Some d) payload) = 200
  ↔ ∃ u,
      find_user d (LoginRequest.email payload) = Some u
      ∧ pwd_context_verify (LoginRequest.password payload)
          (dict_get u "password_hash" (VStr [])) = Done true
      ∧ truthy (dict_get u "is_active" (VBool true)) = true.
Proof.
  destruct (find_user d (LoginRequest.email payload)) as [u|] eqn:Hfind.
  - rewrite (login_user_found _ _ _ Hfind). split.
    + intros Hstatus. exists u. split; [done |].
      destruct (pwd_context_verify _ _) as [[|]|]; [|done..].
      by destruct (truthy _).
    + intros (u' & Hu & Hverify & Hactive). injection Hu as <-.
      by rewrite Hverify, Hactive.
  - rewrite (login_user_unknown _ _ Hfind). split; [done |].
    by intros (u & ? & _).
Qed.

(** X2. /auth/login does not tell apart two submitted emails that agree
    after lower-casing: with the same password both requests get the same
    answer. *)
Theorem login_email_case_insensitive
    `{StrLib} `{CryptContext} (db : option Database)
    (p1 p2 : LoginRequest.t) :
  lower (LoginRequest.email p1) = lower (LoginRequest.email p2) →
  LoginRequest.password p1 = LoginRequest.password p2 →
  login_user db p1 = login_user db p2.
Proof. intros Hemail Hpassword. unfold login_user. by rewrite Hemail, Hpassword. Qed.

Lemma login_email_case_insensitive_witness :
  login_toy alice_db (login_as "ALICE@TEST.COM" "secret1")
  = login_toy alice_db (login_as "alice@test.com" "secret1").
Proof.
  apply (@login_email_case_insensitive ascii_strlib toy_context);
    vm_compute; reflexivity.
Defined.

(** X3. The refusals of /auth/login.  On a configured database the handler
    raises 401 "Invalid email or password" exactly when no user has the
    lower-cased email or the hasher returns False for the user that was
    found, and 403 "Account is inactive" exactly when the hasher returns
    True and [is_active] (true when missing) is falsy; it raises no other
    [HTTPException].  Without a database it raises 500 "Database not
    configured". *)
Theorem login_refusals
    `{StrLib} `{CryptContext} (d : Database) (payload : LoginRequest.t) :
  (login_user (Some d) payload
   = HTTPException 401 (py "Invalid email or password")
   ↔ find_user d (LoginRequest.email payload) = None
     ∨ ∃ u,
         find_user d (LoginRequest.email payload) = Some u
         ∧ pwd_context_verify (LoginRequest.password payload)
             (dict_get u "password_hash" (VStr [])) = Done false)
  ∧ (login_user (Some d) payload
     = HTTPException 403 (py "Account is inactive")
     ↔ ∃ u,
         find_user d (LoginRequest.email payload) = Some u
         ∧ pwd_context_verify (LoginRequest.password payload)
             (dict_get u "password_hash" (VStr [])) = Done true
         ∧ truthy (dict_get u "is_active" (VBool true)) = false)
  ∧ (∀ c detail,
       login_user (Some d) payload = HTTPException c detail →
       (c, detail) ∈ [(401, py "Invalid email or password");
                      (403, py "Account is inactive")])
  ∧ login_user None payload
    = HTTPException 500 (py "Database not configured").
Proof.
  destruct (find_user d (LoginRequest.email payload)) as [u|] eqn:Hfind.
  - rewrite (login_user_found _ _ _ Hfind).
    destruct (pwd_context_verify _ _) as [[|]|e] eqn:Hverify.
    + destruct (truthy _) eqn:Hactive; repeat split; try done.
      * intros [[=] | (u' & Hu & Hv)]. injection Hu as <-. congruence.
      * intros (u' & Hu & _ & Ha). injection Hu as <-. congruence.
      * intros [[=] | (u' & Hu & Hv)]. injection Hu as <-. congruence.
      * intros _. by exists u.
      * intros c detail [= <- <-]. in_list.
    + repeat split; try done.
      * intros _. right. by exists u.
      * intros (u' & Hu & Hv & _). injection Hu as <-. congruence.
      * intros c detail [= <- <-]. in_list.
    + repeat split; try done.
      * intros [[=] | (u' & Hu & Hv)]. injection Hu as <-. congruence.
      * intros (u' & Hu & Hv & _). injection Hu as <-. congruence.
  - rewrite (login_user_unknown _ _ Hfind). repeat split; try done.
    + intros _. by left.
    + by intros (? & ? & _).
    + intros c detail [= <- <-]. in_list.
Qed.

(** X4. An [is_active] field that is there but falsy ([None], [False], the
    empty string) switches the account off like [False]: with the right
    password the login is refused with 403, and with any truthy value it is
    let through. *)
Theorem login_is_active_by_truthiness
    `{StrLib} `{CryptContext} (d : Database) (u : document)
    (payload : LoginRequest.t) (flag : value) :
  find_user d (LoginRequest.email payload) = Some u →
  u !! "is_active" = Some flag →
  pwd_context_verify (LoginRequest.password payload)
    (dict_get u "password_hash" (VStr [])) = Done true →
  (truthy flag = false →
   login_user (Some d) payload
   = HTTPException 403 (py "Account is inactive"))
  ∧ (truthy flag = true → status_of (login_user (Some d) payload) = 200)
  ∧ truthy VNone = false
  ∧ truthy (VBool false) = false
  ∧ truthy (VStr []) = false.
Proof.
  intros Hfind Hflag Hverify.
  rewrite (login_user_found _ _ _ Hfind), Hverify.
  unfold dict_get. rewrite Hflag. simpl.
  repeat split; by intros ->.
Qed.

Lemma login_is_active_by_truthiness_witness :
  login_toy (Some erin_db) (login_as "erin@test.com" "correcthorse")
  = HTTPException 403 (py "Account is inactive").
Proof.
  refine (proj1
    (@login_is_active_by_truthiness ascii_strlib toy_context erin_db
       erin_doc (login_as "erin@test.com" "correcthorse") VNone _ _ _) _);
    vm_compute; reflexivity.
Defined.

(** ** Registration: which answer when *)

(** X5. On a configured database /auth/register answers 400 exactly when a
    user with the lower-cased email is found; and whenever it refuses with
    an [HTTPException] (400, or 500 without a database) the database handle
    is the one it started with. *)
Theorem register_refused_iff_email_taken
    `{StrLib} `{CryptContext} `{DatabaseModule} (d : Database)
    (entropy : pystr) (payload : RegisterRequest.t) :
  (status_of (register_user (Some d) entropy payload).1 = 400
   ↔ ∃ u, find_user d (RegisterRequest.email payload) = Some u)
  ∧ ∀ db c detail st,
      register_user db entropy payload = (HTTPException c detail, st) →
      st = db.
Proof.
  split.
  - destruct (find_user d (RegisterRequest.email payload)) as [u|] eqn:Hfind.
    + rewrite (register_user_existing _ _ _ _ Hfind). split; [by eexists | done].
    + split; [|by intros [? ?]].
      unfold find_user, users in Hfind. unfold register_user.
      rewrite Hfind. simpl.
      destruct (pwd_context_hash _ _); [|done].
      by destruct (create_document _ _ _) as [[??]|].
  - intros [d0|] c detail st; unfold register_user; [|by intros [= _ _ <-]].
    destruct (truthy_doc _); [by intros [= _ _ <-] |].
    destruct (pwd_context_hash _ _); [|done].
    by destruct (create_document _ _ _) as [[??]|].
Qed.

(** X6. On a configured database the handler of /auth/register returns a
    body, instead of raising, exactly when no user has the lower-cased
    email, the hasher returns a hash of the password and [create_document]
    returns for the document built with that hash. *)
Theorem register_returns_iff
    `{StrLib} `{CryptContext} `{DatabaseModule} (d : Database)
    (entropy : pystr) (payload : RegisterRequest.t) :
  (∃ b st, register_user (Some d) entropy payload = (Return b, st))
  ↔ find_user d (RegisterRequest.email payload) = None
    ∧ ∃ h inserted_id d',
        pwd_context_hash entropy (RegisterRequest.password payload)
        = Done h
        ∧ create_document "blooduser" (user_document payload h) d
          = Done (inserted_id, d').
Proof.
  split.
  - intros (b & st & (h & id & d' & Hnone & Hhash & Hcreate & _)
      %register_user_Return).
    split; [done |]. by exists h, id, d'.
  - intros (Hnone & h & id & d' & Hhash & Hcreate).
    unfold find_user, users in Hnone. unfold register_user.
    rewrite Hnone, Hhash. simpl. rewrite Hcreate. by eexists _, _.
Qed.

(** X7. /auth/register does not tell apart two submitted emails that agree
    after lower-casing: two requests that are otherwise the same get the
    same answer and leave the same database. *)
Theorem register_email_case_insensitive
    `{StrLib} `{CryptContext} `{DatabaseModule} (db : option Database)
    (entropy : pystr) (p1 p2 : RegisterRequest.t) :
  lower (RegisterRequest.email p1) = lower (RegisterRequest.email p2) →
  RegisterRequest.name p1 = RegisterRequest.name p2 →
  RegisterRequest.password p1 = RegisterRequest.password p2 →
  RegisterRequest.phone p1 = RegisterRequest.phone p2 →
  RegisterRequest.city p1 = RegisterRequest.city p2 →
  RegisterRequest.blood_group p1 = RegisterRequest.blood_group p2 →
  register_user db entropy p1 = register_user db entropy p2.
Proof.
  intros Hemail Hname Hpassword Hphone Hcity Hblood.
  unfold register_user, user_document.
  by rewrite Hemail, Hname, Hpassword, Hphone, Hcity, Hblood.
Qed.

Lemma register_email_case_insensitive_witness :
  register_toy (Some empty_db) (py "salt") alice
  = register_toy (Some empty_db) (py "salt")
      {| RegisterRequest.name := py "Alice";
         RegisterRequest.email := py "ALICE@TEST.COM";
         RegisterRequest.password := py "secret1";
         RegisterRequest.phone := None;
         RegisterRequest.city := None;
         RegisterRequest.blood_group := None |}.
Proof.
  apply (@register_email_case_insensitive ascii_strlib toy_context
           spec_database);
    vm_compute; reflexivity.
Defined.

(** X8. The document that a successful registration hands to
    [create_document] has exactly the eight fields of the literal: it holds
    the hash that the hasher returned for the password and the phone as it
    was submitted, and it has no field for the password itself. *)
Theorem register_stores_hash_not_password
    `{StrLib} `{CryptContext} `{DatabaseModule} (d : Database)
    (entropy : pystr) (payload : RegisterRequest.t) (b : body)
    (st : option Database) :
  register_user (Some d) entropy payload = (Return b, st) →
  ∃ h inserted_id d',
    pwd_context_hash entropy (RegisterRequest.password payload) = Done h
    ∧ create_document "blooduser" (user_document payload h) d
      = Done (inserted_id, d')
    ∧ dom (user_document payload h)
      = ({[ "name"; "email"; "phone"; "city"; "blood_group"; "role";
            "password_hash"; "is_active" ]} : gset string)
    ∧ user_document payload h !! "password_hash" = Some (VStr h)
    ∧ user_document payload h !! "phone"
      = Some (opt_value (RegisterRequest.phone payload))
    ∧ user_document payload h !! "password" = None.
Proof.
  intros (h & inserted_id & d' & _ & Hhash & Hcreate & _ & _)
    %register_user_Return.
  exists h, inserted_id, d'.
  destruct (user_document_lookups payload h)
    as (_ & _ & Hphone & _ & _ & _ & Hp & _).
  repeat split; done.
Qed.

Lemma register_stores_hash_not_password_witness :
  ∃ h inserted_id d',
    toy_hash (py "salt") (py "secret1") = Done h
    ∧ spec_create_document "blooduser"
        (@user_document ascii_strlib alice h) empty_db
      = Done (inserted_id, d')
    ∧ dom (@user_document ascii_strlib alice h)
      = ({[ "name"; "email"; "phone"; "city"; "blood_group"; "role";
            "password_hash"; "is_active" ]} : gset string)
    ∧ @user_document ascii_strlib alice h !! "password_hash"
      = Some (VStr h)
    ∧ @user_document ascii_strlib alice h !! "phone" = Some VNone
    ∧ @user_document ascii_strlib alice h !! "password" = None.
Proof.
  apply (@register_stores_hash_not_password ascii_strlib toy_context
           spec_database empty_db (py "salt") alice
           (body_of (register_toy (Some empty_db) (py "salt") alice).1)
           alice_db).
  vm_compute; reflexivity.
Defined.

(** ** Diagnostics: what is reported when a probe fails *)

(** X9. GET /test keeps what it wrote before a probe raised.  The
    ["connection_status"] entry says "Connected" as soon as there is a
    handle whose [name] lookup does not raise, also when listing the
    collections then fails; the ["database_url"] entry is filled for every
    handle, also when the [name] lookup raises, and an empty [DATABASE_URL]
    counts as not set; without a handle both keep their initial values. *)
Theorem test_database_reports_progress (db : option Database)
    (DATABASE_URL : option pystr) :
  ∃ fields,
    test_database db DATABASE_URL = Return (Obj fields)
    ∧ assoc "connection_status" fields
      = Some (text
                match db with
                | Some d =>
                    match db_name d with
                    | AttrRaises _ => py "Not Connected"
                    | _ => py "Connected"
                    end
                | None => py "Not Connected"
                end)
    ∧ assoc "database_url" fields
      = Some match db, DATABASE_URL with
             | None, _ => Leaf VNone
             | Some _, Some (_ :: _) => text (CHECK_MARK ++ py " Set")
             | Some _, _ => text (CROSS_MARK ++ py " Not Set")
             end.
Proof.
  destruct db as [[name listing colls next]|];
    [destruct name, listing, DATABASE_URL as [[|]|] |];
    eexists; repeat split; reflexivity.
Qed.

(** X10. The ["database_name"] entry of GET /test is the handle's [name]
    when it has one, the fixed text "Connected" (with the check mark) when
    it has no such attribute, and stays [None] without a handle or when the
    lookup raises; the ["backend"] entry always says "Running". *)
Theorem test_database_reports_name (db : option Database)
    (DATABASE_URL : option pystr) :
  ∃ fields,
    test_database db DATABASE_URL = Return (Obj fields)
    ∧ assoc "backend" fields = Some (text (CHECK_MARK ++ py " Running"))
    ∧ assoc "database_name" fields
      = Some (Leaf
                match db with
                | Some d =>
                    match db_name d with
                    | AttrValue v => v
                    | AttrMissing => VStr (CHECK_MARK ++ py " Connected")
                    | AttrRaises _ => VNone
                    end
                | None => VNone
                end).
Proof.
  destruct db as [[name listing colls next]|];
    [destruct name, listing |];
    eexists; repeat split; reflexivity.
Qed.

(** ** The store under registrations *)

Lemma spec_inserts_at_end : @inserts_at_end spec_database.
Proof.
  intros data d inserted_id d' Hcreate.
  destruct (spec_create_document_users data d) as (d2 & Hspec & Husers & _).
  simpl in Hcreate. rewrite Hspec in Hcreate. injection Hcreate as _ <-.
  eexists. split; [exact Husers |]. by rewrite lookup_insert_ne.
Qed.

Lemma ascii_lower_idempotent s : ascii_lower (ascii_lower s) = ascii_lower s.
Proof.
  unfold ascii_lower. rewrite map_map. apply map_ext. intros c.
  unfold ascii_lower_char.
  destruct ((65 <=? c)%N && (c <=? 90)%N) eqn:Hupper; [|by rewrite Hupper].
  apply andb_true_iff in Hupper as [Hge%N.leb_le _].
  destruct ((65 <=? c + 32)%N && (c + 32 <=? 90)%N) eqn:Hagain; [|done].
  apply andb_true_iff in Hagain as [_ Hle%N.leb_le]. lia.
Qed.

Lemma alice_then_zoe :
  @registrations ascii_strlib toy_context spec_database
    alice_database alice_zoe_database.
Proof.
  apply (@registrations_step ascii_strlib toy_context spec_database
           alice_database (py "pepper") zoe
           (register_toy alice_db (py "pepper") zoe).1
           alice_zoe_database alice_zoe_database);
    [vm_compute; reflexivity | apply registrations_refl].
Qed.

Lemma with_email_unknown `{StrLib} d email :
  email_unknown d email → with_email d (lower email) = [].
Proof.
  unfold email_unknown, with_email.
  induction 1 as [|u l Hu _ IH]; [done |].
  by rewrite filter_cons_False.
Qed.

Section Store.
Context `{StrLib} `{CryptContext} `{DatabaseModule}.

(** One call of /auth/register: the database is the same afterwards, or the
    email was not there and one document with it stands at the end. *)
Lemma register_user_step d entropy payload r d' :
  inserts_at_end →
  register_user (Some d) entropy payload = (r, Some d') →
  d' = d
  ∨ ∃ stored,
      find_user d (RegisterRequest.email payload) = None
      ∧ users d' = users d ++ [stored]
      ∧ stored !! "email"
        = Some (VStr (lower (RegisterRequest.email payload))).
Proof.
  intros Hstore. destruct r as [b|c m|e].
  - intros (h & id & d2 & Hnone & _ & Hcreate & [= ->] & _)
      %register_user_Return.
    apply Hstore in Hcreate as (stored & Husers & Hemail).
    right. exists stored. split; [done |]. split; [done |].
    rewrite Hemail.
    by destruct (user_document_lookups payload h) as (_ & -> & _).
  - unfold register_user.
    destruct (truthy_doc _); [by intros [= _ _ <-]; left |].
    destruct (pwd_context_hash _ _); [|done].
    by destruct (create_document _ _ _) as [[??]|].
  - unfold register_user. destruct (truthy_doc _); [done |].
    destruct (pwd_context_hash _ _); [|by intros [= _ <-]; left].
    destruct (create_document _ _ _) as [[??]|]; [done |].
    intros [= _ <-]. by left.
Qed.

Lemma registrations_found_stays d d' email u :
  inserts_at_end →
  registrations d d' →
  find_user d email = Some u →
  find_user d' email = Some u.
Proof.
  intros Hstore.
  induction 1 as [|d entropy payload r d' d'' Hstep _ IH]; [done |].
  intros Hfind. apply IH.
  destruct (register_user_step _ _ _ _ _ Hstore Hstep)
    as [-> | (stored & _ & Husers & _)]; [done |].
  unfold find_user in *. by rewrite Husers, find_one_app, Hfind.
Qed.

End Store.

(** X11. The check before the insert keeps emails unique: if no two stored
    documents share an email, then after a call of /auth/register, whatever
    its result, still no two do.  ([create_document] is assumed to put the
    document it is given at the end of the collection.) *)
Theorem register_keeps_emails_unique
    `{StrLib} `{CryptContext} `{DatabaseModule} (d d' : Database)
    (entropy : pystr) (payload : RegisterRequest.t) (r : result body) :
  inserts_at_end →
  unique_emails d →
  register_user (Some d) entropy payload = (r, Some d') →
  unique_emails d'.
Proof.
  intros Hstore Hunique Hstep.
  destruct (register_user_step _ _ _ _ _ Hstore Hstep)
    as [-> | (stored & Hnone & Husers & Hemail)]; [done |].
  intros email. unfold with_email. rewrite Husers, filter_app, length_app.
  destruct (decide (email = lower (RegisterRequest.email payload)))
    as [-> | Hother].
  - apply find_user_None, with_email_unknown in Hnone.
    unfold with_email in Hnone. rewrite Hnone.
    rewrite filter_cons_True by done. simpl. lia.
  - rewrite filter_cons_False by (rewrite Hemail; congruence).
    specialize (Hunique email). unfold with_email in Hunique.
    simpl. lia.
Qed.

Lemma register_keeps_emails_unique_witness :
  unique_emails alice_zoe_database.
Proof.
  apply (@register_keeps_emails_unique ascii_strlib toy_context
           spec_database alice_database alice_zoe_database (py "pepper") zoe
           (register_toy alice_db (py "pepper") zoe).1).
  - exact spec_inserts_at_end.
  - apply (@register_keeps_emails_unique ascii_strlib toy_context
             spec_database empty_db alice_database (py "salt") alice
             (register_toy (Some empty_db) (py "salt") alice).1).
    + exact spec_inserts_at_end.
    + intros email. vm_compute. lia.
    + vm_compute; reflexivity.
  - vm_compute; reflexivity.
Defined.

(** X12. Registrations do not disturb the login of a user who is already
    there: when the lookup of an email finds a user, /auth/login for that
    email answers the same after any number of calls of /auth/register.
    (Same assumption on [create_document].) *)
Theorem login_unchanged_by_registrations
    `{StrLib} `{CryptContext} `{DatabaseModule} (d d' : Database)
    (q : LoginRequest.t) (u : document) :
  inserts_at_end →
  registrations d d' →
  find_user d (LoginRequest.email q) = Some u →
  login_user (Some d') q = login_user (Some d) q.
Proof.
  intros Hstore Hlater Hfind.
  pose proof (registrations_found_stays _ _ _ _ Hstore Hlater Hfind) as Hfind'.
  by rewrite (login_user_found _ _ _ Hfind), (login_user_found _ _ _ Hfind').
Qed.

Lemma login_unchanged_by_registrations_witness :
  login_toy (Some alice_zoe_database) (login_as "alice@test.com" "wrong")
  = login_toy (Some alice_database) (login_as "alice@test.com" "wrong").
Proof.
  apply (@login_unchanged_by_registrations ascii_strlib toy_context
           spec_database alice_database alice_zoe_database
           (login_as "alice@test.com" "wrong")
           (<["_id" := VOid 0%N]>
              (@user_document ascii_strlib alice
                 (py "$2b$" ++ [4%N] ++ py "salt" ++ py "secret1")))).
  - exact spec_inserts_at_end.
  - exact alice_then_zoe.
  - vm_compute; reflexivity.
Defined.

(** X13. /auth/register never removes or changes a stored document: after
    any number of calls the collection begins with the documents it had.
    (Same assumption on [create_document].) *)
Theorem registrations_only_append
    `{StrLib} `{CryptContext} `{DatabaseModule} (d d' : Database) :
  inserts_at_end →
  registrations d d' →
  users d `prefix_of` users d'.
Proof.
  intros Hstore.
  induction 1 as [|d entropy payload r d' d'' Hstep _ IH]; [done |].
  destruct (register_user_step _ _ _ _ _ Hstore Hstep)
    as [-> | (stored & _ & Husers & _)]; [done |].
  etrans; [|exact IH]. rewrite Husers. by apply prefix_app_r.
Qed.

Lemma registrations_only_append_witness :
  users alice_database `prefix_of` users alice_zoe_database.
Proof.
  apply (@registrations_only_append ascii_strlib toy_context spec_database).
  - exact spec_inserts_at_end.
  - exact alice_then_zoe.
Defined.

(** X14. An email that was registered is stored exactly once, and stays so:
    after a successful /auth/register and any number of further calls,
    exactly one document has the lower-cased email.  (Same assumption on
    [create_document].) *)
Theorem registered_email_stored_once
    `{StrLib} `{CryptContext} `{DatabaseModule} (d d' d'' : Database)
    (entropy : pystr) (payload : RegisterRequest.t) (b : body) :
  inserts_at_end →
  register_user (Some d) entropy payload = (Return b, Some d') →
  registrations d' d'' →
  length (with_email d'' (lower (RegisterRequest.email payload))) = 1%nat.
Proof.
  intros Hstore Hreg Hlater.
  assert (length (with_email d' (lower (RegisterRequest.email payload)))
          = 1%nat) as Hone.
  { destruct (register_user_step _ _ _ _ _ Hstore Hreg)
      as [-> | (stored & Hnone & Husers & Hemail)].
    - apply register_user_Return in Hreg
        as (h & id & d2 & Hnone & _ & Hcreate & [= Hd] & _).
      apply Hstore in Hcreate as (stored & Husers & _).
      rewrite <- Hd in Husers. apply (f_equal length) in Husers.
      rewrite length_app in Husers. simpl in Husers. lia.
    - apply find_user_None, with_email_unknown in Hnone.
      unfold with_email in *. rewrite Husers, filter_app, Hnone.
      by rewrite filter_cons_True. }
  clear Hreg. revert Hone. generalize (lower (RegisterRequest.email payload)).
  induction Hlater as [|d1 entropy1 payload1 r d2 d3 Hstep _ IH]; [done |].
  intros email Hone. apply IH.
  destruct (register_user_step _ _ _ _ _ Hstore Hstep)
    as [-> | (stored & Hnone & Husers & Hemail)]; [done |].
  unfold with_email in *. rewrite Husers, filter_app.
  rewrite filter_cons_False; [by rewrite app_nil_r |].
  rewrite Hemail. intros [= <-].
  apply find_user_None, with_email_unknown in Hnone.
  unfold with_email in Hnone. by rewrite Hnone in Hone.
Qed.

Lemma registered_email_stored_once_witness :
  length (with_email alice_zoe_database (py "alice@test.com")) = 1%nat.
Proof.
  apply (@registered_email_stored_once ascii_strlib toy_context
           spec_database empty_db alice_database alice_zoe_database
           (py "salt") alice
           (body_of (register_toy (Some empty_db) (py "salt") alice).1)).
  - exact spec_inserts_at_end.
  - vm_compute; reflexivity.
  - exact alice_then_zoe.
Defined.

(** X15. Registrations keep the stored emails in lower case: if every
    stored email is its own lower-case form and lower-casing twice is
    lower-casing once, the same holds after any number of calls of
    /auth/register.  (Same assumption on [create_document].) *)
Theorem registrations_keep_emails_lower_case
    `{StrLib} `{CryptContext} `{DatabaseModule} (d d' : Database) :
  inserts_at_end →
  (∀ s, lower (lower s) = lower s) →
  emails_normalized d →
  registrations d d' →
  emails_normalized d'.
Proof.
  intros Hstore Hidem Hnorm Hlater.
  induction Hlater as [|d entropy payload r d' d'' Hstep _ IH]; [done |].
  apply IH.
  destruct (register_user_step _ _ _ _ _ Hstore Hstep)
    as [-> | (stored & _ & Husers & Hemail)]; [done |].
  unfold emails_normalized in *. rewrite Husers.
  apply Forall_app. split; [done |].
  apply Forall_singleton. intros s. rewrite Hemail. by intros [= <-].
Qed.

Lemma registrations_keep_emails_lower_case_witness :
  @emails_normalized ascii_strlib alice_zoe_database.
Proof.
  apply (@registrations_keep_emails_lower_case ascii_strlib toy_context
           spec_database alice_database alice_zoe_database).
  - exact spec_inserts_at_end.
  - exact ascii_lower_idempotent.
  - repeat constructor. intros s [= <-]. vm_compute; reflexivity.
  - exact alice_then_zoe.
Defined.


(** ** A hasher that raises *)

(** X16. When the email is free and [pwd_context.hash] raises, the exception
    leaves /auth/register, the client gets 500, [create_document] is not
    reached and the database is as it was. *)
Theorem register_hash_failure_stores_nothing
    `{StrLib} `{CryptContext} `{DatabaseModule} (d : Database)
    (entropy : pystr) (payload : RegisterRequest.t) (e : exception) :
  find_user d (RegisterRequest.email payload) = None →
  pwd_context_hash entropy (RegisterRequest.password payload) = Throws e →
  register_user (Some d) entropy payload = (Uncaught e, Some d)
  ∧ status_of (register_user (Some d) entropy payload).1 = 500.
Proof.
  intros Hnone Hraise. unfold find_user, users in Hnone.
  unfold register_user. by rewrite Hnone, Hraise.
Qed.

Lemma register_hash_failure_stores_nothing_witness :
  status_of
    (@register_user ascii_strlib strict_context spec_database
       (Some alice_database) (py "salt") long_password_request).1 = 500.
Proof.
  refine (proj2
    (@register_hash_failure_stores_nothing ascii_strlib strict_context
       spec_database alice_database (py "salt") long_password_request
       (Exception "ValueError"
          (py "password cannot be longer than 72 bytes")) _ _));
    vm_compute; reflexivity.
Defined.
